(** * JobShardingConfig: the swagger-generated sharding model

    A shallow embedding of
    [clients/python/bacalhau_apiclient/models/job_sharding_config.py]:
    the class attributes [swagger_types] and [attribute_map], the
    constructor, the three properties with their setters, [to_dict],
    [to_str], [__repr__], [__eq__] and [__ne__].

    The class validates nothing, so a field can hold any Python value.
    The universe of values below has the shapes that [to_dict] tells
    apart: the [None] object, integers, strings, lists, dictionaries
    with string keys, and instances of the class itself (the only
    objects of this file that expose a [to_dict] method). *)

From Stdlib Require Import ZArith List String Bool Arith Lia.
Import ListNotations.

Local Open Scope string_scope.
Local Open Scope list_scope.

Local Unset Elimination Schemes.

(** ** Python dictionaries

    A dictionary is an association list in insertion order, the order
    in which [six.iteritems] walks it.  A list denotes the dictionary in
    which the first binding of a key is the binding of that key. *)

Module Dict.

Section Ops.
Context {V : Type}.

Fixpoint get (k : string) (d : list (string * V)) : option V :=
  match d with
  | [] => None
  | (k', v) :: d' => if String.eqb k k' then Some v else get k d'
  end.

(** [d[k] = v]: replaces the binding of [k] where it stands, or adds
    the binding at the end. *)
Fixpoint set (k : string) (v : V) (d : list (string * V)) : list (string * V) :=
  match d with
  | [] => [(k, v)]
  | (k', v') :: d' =>
      if String.eqb k k' then (k, v) :: d' else (k', v') :: set k v d'
  end.

Definition mem (k : string) (d : list (string * V)) : bool :=
  match get k d with Some _ => true | None => false end.

(** The keys of the dictionary, each once, in insertion order. *)
Fixpoint keys_from (seen : list string) (d : list (string * V)) : list string :=
  match d with
  | [] => []
  | (k, _) :: d' =>
      if existsb (String.eqb k) seen then keys_from seen d'
      else k :: keys_from (k :: seen) d'
  end.

Definition keys (d : list (string * V)) : list string := keys_from [] d.

Definition len (d : list (string * V)) : nat := List.length (keys d).

(** [d1 == d2] given the comparison of values: the two dictionaries
    have as many keys, and every key of [d1] is a key of [d2] bound to
    an equal value. *)
Definition eqb (veq : V -> V -> bool) (d1 d2 : list (string * V)) : bool :=
  Nat.eqb (len d1) (len d2) &&
  forallb (fun k =>
             match get k d1, get k d2 with
             | Some v, Some w => veq v w
             | _, _ => false
             end) (keys d1).

End Ops.

End Dict.

(** [xs == ys] on lists: same length and equal elements, in order. *)
Fixpoint list_eqb {V : Type} (veq : V -> V -> bool) (xs ys : list V) : bool :=
  match xs, ys with
  | [], [] => true
  | x :: xs', y :: ys' => veq x y && list_eqb veq xs' ys'
  | _, _ => false
  end.

Section Model.

(** [bacalhau_apiclient.configuration.Configuration] is imported by the
    module and lives in another file: the class and the object that
    [Configuration()] returns are parameters of the development. *)
Context {Configuration : Type}.
Variable Configuration_new : Configuration.

(** ** Values and instances *)

Inductive value : Type :=
| VNone
| VInt (n : Z)
| VStr (s : string)
| VList (xs : list value)
| VDict (items : list (string * value))
| VObject (o : JobShardingConfig)
with JobShardingConfig : Type :=
| Instance (_configuration : Configuration)
           (_batch_size _glob_pattern _glob_pattern_base_path : value)
           (discriminator : value).

Definition _configuration (self : JobShardingConfig) : Configuration :=
  let 'Instance c _ _ _ _ := self in c.
Definition _batch_size (self : JobShardingConfig) : value :=
  let 'Instance _ b _ _ _ := self in b.
Definition _glob_pattern (self : JobShardingConfig) : value :=
  let 'Instance _ _ g _ _ := self in g.
Definition _glob_pattern_base_path (self : JobShardingConfig) : value :=
  let 'Instance _ _ _ p _ := self in p.
Definition discriminator (self : JobShardingConfig) : value :=
  let 'Instance _ _ _ _ d := self in d.

(** Structural induction on values, through the lists and the
    dictionaries that hold them and through the fields of an instance. *)
Section Induction.

Variable P : value -> Prop.
Hypothesis P_none : P VNone.
Hypothesis P_int : forall n, P (VInt n).
Hypothesis P_str : forall s, P (VStr s).
Hypothesis P_list : forall xs, Forall P xs -> P (VList xs).
Hypothesis P_dict :
  forall items, Forall (fun item => P (snd item)) items -> P (VDict items).
Hypothesis P_object :
  forall c b g p d, P b -> P g -> P p -> P d -> P (VObject (Instance c b g p d)).

Fixpoint value_ind (v : value) : P v :=
  match v with
  | VNone => P_none
  | VInt n => P_int n
  | VStr s => P_str s
  | VList xs =>
      P_list xs
        ((fix elements (l : list value) : Forall P l :=
            match l with
            | [] => Forall_nil P
            | x :: l' => Forall_cons x (value_ind x) (elements l')
            end) xs)
  | VDict items =>
      P_dict items
        ((fix bindings (l : list (string * value))
            : Forall (fun item => P (snd item)) l :=
            match l with
            | [] => Forall_nil _
            | item :: l' =>
                Forall_cons item (value_ind (snd item)) (bindings l')
            end) items)
  | VObject (Instance c b g p d) =>
      P_object c b g p d (value_ind b) (value_ind g) (value_ind p)
               (value_ind d)
  end.

End Induction.

(** [pprint.pformat] belongs to the Python library: a parameter. *)
Variable pformat : value -> string.

(** ** Class attributes *)

Definition swagger_types : list (string * string) :=
  [ ("batch_size", "int");
    ("glob_pattern", "str");
    ("glob_pattern_base_path", "str") ].

Definition attribute_map : list (string * string) :=
  [ ("batch_size", "BatchSize");
    ("glob_pattern", "GlobPattern");
    ("glob_pattern_base_path", "GlobPatternBasePath") ].

(** ** Properties *)

Definition batch_size (self : JobShardingConfig) : value :=
  _batch_size self.

Definition batch_size_setter (self : JobShardingConfig) (batch_size : value)
  : JobShardingConfig :=
  let 'Instance c _ g p d := self in Instance c batch_size g p d.

Definition glob_pattern (self : JobShardingConfig) : value :=
  _glob_pattern self.

Definition glob_pattern_setter (self : JobShardingConfig) (glob_pattern : value)
  : JobShardingConfig :=
  let 'Instance c b _ p d := self in Instance c b glob_pattern p d.

Definition glob_pattern_base_path (self : JobShardingConfig) : value :=
  _glob_pattern_base_path self.

Definition glob_pattern_base_path_setter (self : JobShardingConfig)
    (glob_pattern_base_path : value) : JobShardingConfig :=
  let 'Instance c b g _ d := self in Instance c b g glob_pattern_base_path d.

(** ** Constructor *)

Definition is_none (v : value) : bool :=
  match v with VNone => true | _ => false end.

(** The body of [__init__], its four parameters bound. *)
Definition __init__ (batch_size glob_pattern glob_pattern_base_path : value)
    (_configuration : option Configuration) : JobShardingConfig :=
  let _configuration :=
    match _configuration with
    | None => Configuration_new
    | Some c => c
    end in
  let self := Instance _configuration VNone VNone VNone VNone in
  let self :=
    if negb (is_none batch_size) then batch_size_setter self batch_size
    else self in
  let self :=
    if negb (is_none glob_pattern) then glob_pattern_setter self glob_pattern
    else self in
  let self :=
    if negb (is_none glob_pattern_base_path)
    then glob_pattern_base_path_setter self glob_pattern_base_path
    else self in
  self.

(** A call [JobShardingConfig(...)]: each of the three field arguments
    is supplied ([Some v]) or left out ([None]), and one left out takes
    the default of the signature, the [None] object. *)
Definition default_arg (supplied : option value) : value :=
  match supplied with
  | Some v => v
  | None => VNone
  end.

Definition new (batch_size glob_pattern glob_pattern_base_path : option value)
    (_configuration : option Configuration) : JobShardingConfig :=
  __init__ (default_arg batch_size) (default_arg glob_pattern)
           (default_arg glob_pattern_base_path) _configuration.

(** ** Serialization *)

(** [getattr(self, attr)] runs the property of that name; a name that
    is no attribute raises [AttributeError], here [None]. *)
Definition getattr (self : JobShardingConfig) (attr : string) : option value :=
  if String.eqb attr "batch_size" then Some (batch_size self)
  else if String.eqb attr "glob_pattern" then Some (glob_pattern self)
  else if String.eqb attr "glob_pattern_base_path"
       then Some (glob_pattern_base_path self)
  else if String.eqb attr "discriminator" then Some (discriminator self)
  else None.

(** The conversions inside the loop of [to_dict].
    - [to_dict_item x] is [x.to_dict() if hasattr(x, "to_dict") else x],
      the function mapped over a list and over the values of a
      dictionary;
    - [to_dict_value v] is what the four branches store in
      [result[attr]];
    - [to_dict_object o] is [o.to_dict()] for an instance met inside a
      value: the three attributes of [swagger_types], converted.
      [to_dict_object_eq] below shows it is the method [to_dict]. *)
Fixpoint to_dict_item (x : value) : value :=
  match x with
  | VObject o => to_dict_object o
  | _ => x
  end
with to_dict_value (v : value) : value :=
  match v with
  | VList xs => VList (map to_dict_item xs)
  | VObject o => to_dict_object o
  | VDict items =>
      VDict (map (fun item => (fst item, to_dict_item (snd item))) items)
  | _ => v
  end
with to_dict_object (o : JobShardingConfig) : value :=
  match o with
  | Instance _ b g p _ =>
      VDict [ ("batch_size", to_dict_value b);
              ("glob_pattern", to_dict_value g);
              ("glob_pattern_base_path", to_dict_value p) ]
  end.

(** [to_dict]: the loop over [swagger_types].  The class derives from
    [object], so [issubclass(JobShardingConfig, dict)] is false and the
    second loop never runs. *)
Definition to_dict (self : JobShardingConfig) : list (string * value) :=
  fold_left
    (fun result item =>
       let attr := fst item in
       match getattr self attr with
       | Some v => Dict.set attr (to_dict_value v) result
       | None => result
       end)
    swagger_types [].

Definition to_str (self : JobShardingConfig) : string :=
  pformat (VDict (to_dict self)).

Definition __repr__ (self : JobShardingConfig) : string :=
  to_str self.

(** ** Comparison *)

(** [a == b] in Python.  Values of different shapes are unequal; lists
    compare element by element; dictionaries compare as mappings; two
    instances compare by [JobShardingConfig.__eq__], that is by their
    [to_dict()].  That last case is not a call on a part of [a], so the
    recursion counts steps: [n] bounds the depth of the comparison. *)
Fixpoint py_eq_fuel (n : nat) (a b : value) {struct n} : bool :=
  match n with
  | O => false
  | S n' =>
      match a, b with
      | VNone, VNone => true
      | VInt x, VInt y => Z.eqb x y
      | VStr s, VStr t => String.eqb s t
      | VList xs, VList ys => list_eqb (py_eq_fuel n') xs ys
      | VDict d1, VDict d2 => Dict.eqb (py_eq_fuel n') d1 d2
      | VObject o1, VObject o2 =>
          py_eq_fuel n' (to_dict_object o1) (to_dict_object o2)
      | _, _ => false
      end
  end.

(** The depth a comparison with [v] on the left can reach. *)
Fixpoint rank (v : value) : nat :=
  match v with
  | VNone | VInt _ | VStr _ => 1
  | VList xs => S (fold_right (fun x m => Nat.max (rank x) m) 0 xs)
  | VDict items =>
      S (fold_right (fun item m => Nat.max (rank (snd item)) m) 0 items)
  | VObject o => S (S (rank_object o))
  end
with rank_object (o : JobShardingConfig) : nat :=
  match o with
  | Instance _ b g p _ => Nat.max (rank b) (Nat.max (rank g) (rank p))
  end.

Definition py_eq (a b : value) : bool := py_eq_fuel (rank a) a b.

(** [a != b] on the values compared here is the negation of [a == b]. *)
Definition py_ne (a b : value) : bool := negb (py_eq a b).

(** [isinstance(other, JobShardingConfig)], with the instance when it
    is one. *)
Definition isinstance_JobShardingConfig (other : value)
  : option JobShardingConfig :=
  match other with
  | VObject o => Some o
  | _ => None
  end.

Definition __eq__ (self : JobShardingConfig) (other : value) : bool :=
  match isinstance_JobShardingConfig other with
  | None => false
  | Some other => py_eq (VDict (to_dict self)) (VDict (to_dict other))
  end.

Definition __ne__ (self : JobShardingConfig) (other : value) : bool :=
  match isinstance_JobShardingConfig other with
  | None => true
  | Some other => py_ne (VDict (to_dict self)) (VDict (to_dict other))
  end.

(** ** The mapping the specification describes

    The specification words the result of [to_dict()] as the fields that
    were supplied, each under the external name that [attribute_map]
    gives it.  [spec_to_dict] is that mapping, to be set against
    [to_dict]. *)
Definition spec_to_dict (batch_size glob_pattern glob_pattern_base_path
                         : option value) : list (string * value) :=
  flat_map
    (fun field : string * option value =>
       match snd field, Dict.get (fst field) attribute_map with
       | Some v, Some external => [(external, v)]
       | _, _ => []
       end)
    [ ("batch_size", batch_size);
      ("glob_pattern", glob_pattern);
      ("glob_pattern_base_path", glob_pattern_base_path) ].

(** Two association lists that denote the same mapping. *)
Definition same_mapping (d1 d2 : list (string * value)) : Prop :=
  forall k, Dict.get k d1 = Dict.get k d2.

(** The values of the declared types of [swagger_types], and [None]. *)
Definition is_scalar (v : value) : bool :=
  match v with
  | VNone | VInt _ | VStr _ => true
  | _ => false
  end.

(** What the methods of the class tell about two instances: the same
    [to_dict()], the same [to_str()], each equal to the other, and the
    same answer of [__eq__] against any third value, on either side. *)
Definition indistinguishable (x y : JobShardingConfig) : Prop :=
  to_dict x = to_dict y
  /\ to_str x = to_str y
  /\ __eq__ x (VObject y) = true
  /\ __eq__ y (VObject x) = true
  /\ (forall other, __eq__ x other = __eq__ y other)
  /\ (forall o, __eq__ o (VObject x) = __eq__ o (VObject y)).

(** * Properties *)

(** ** Association lists *)

Lemma get_In (V : Type) (k : string) (v : V) (d : list (string * V)) :
  Dict.get k d = Some v -> In (k, v) d.
Proof.
  induction d as [|[k' v'] d IH]; simpl; [discriminate|].
  destruct (String.eqb k k') eqn:E.
  - intros [= ->]. apply String.eqb_eq in E. subst. now left.
  - intros H. right. now apply IH.
Qed.

Lemma keys_from_get (V : Type) (k : string) (d : list (string * V)) :
  forall seen, In k (Dict.keys_from seen d) -> exists v, Dict.get k d = Some v.
Proof.
  induction d as [|[k' v'] d IH]; simpl; intros seen H; [contradiction|].
  destruct (String.eqb k k') eqn:E; [now exists v'|].
  destruct (existsb (String.eqb k') seen).
  - now apply (IH seen).
  - destruct H as [->|H].
    + now rewrite String.eqb_refl in E.
    + now apply (IH (k' :: seen)).
Qed.

Lemma keys_from_map (V W : Type) (f : V -> W) (d : list (string * V)) :
  forall seen,
    Dict.keys_from seen (map (fun item => (fst item, f (snd item))) d)
    = Dict.keys_from seen d.
Proof.
  induction d as [|[k v] d IH]; simpl; intros seen; [reflexivity|].
  destruct (existsb (String.eqb k) seen); now rewrite IH.
Qed.

Lemma get_map (V W : Type) (f : V -> W) (k : string) (d : list (string * V)) :
  Dict.get k (map (fun item => (fst item, f (snd item))) d)
  = option_map f (Dict.get k d).
Proof.
  induction d as [|[k' v] d IH]; simpl; [reflexivity|].
  now destruct (String.eqb k k').
Qed.

Lemma forallb_ext_in (A : Type) (f g : A -> bool) (l : list A) :
  (forall x, In x l -> f x = g x) -> forallb f l = forallb g l.
Proof.
  induction l as [|x l IH]; simpl; intros H; [reflexivity|].
  rewrite (H x) by now left. f_equal. apply IH. intros y Hy. apply H. now right.
Qed.

Lemma dict_eqb_ext (V : Type) (f g : V -> V -> bool) (d1 d2 : list (string * V)) :
  (forall k v w, In (k, v) d1 -> f v w = g v w) ->
  Dict.eqb f d1 d2 = Dict.eqb g d1 d2.
Proof.
  intros H. unfold Dict.eqb. f_equal. apply forallb_ext_in. intros k _.
  destruct (Dict.get k d1) as [v|] eqn:E1; [|reflexivity].
  destruct (Dict.get k d2) as [w|]; [|reflexivity].
  apply (H k). now apply get_In.
Qed.

Lemma list_eqb_ext (V : Type) (f g : V -> V -> bool) (xs : list V) :
  forall ys,
    (forall x y, In x xs -> f x y = g x y) ->
    list_eqb f xs ys = list_eqb g xs ys.
Proof.
  induction xs as [|x xs IH]; intros [|y ys] H; simpl; try reflexivity.
  rewrite (H x y) by now left. f_equal. apply IH. intros x' y' Hx.
  apply H. now right.
Qed.

(** ** The depth of a comparison *)

Lemma rank_pos (v : value) : 1 <= rank v.
Proof. destruct v; simpl; lia. Qed.

Lemma rank_element (x : value) (xs : list value) :
  In x xs -> rank x <= fold_right (fun x m => Nat.max (rank x) m) 0 xs.
Proof.
  induction xs as [|y xs IH]; simpl; [contradiction|].
  intros [->|H]; [lia|]. specialize (IH H). lia.
Qed.

Lemma rank_binding (item : string * value) (items : list (string * value)) :
  In item items ->
  rank (snd item)
  <= fold_right (fun item m => Nat.max (rank (snd item)) m) 0 items.
Proof.
  induction items as [|y items IH]; simpl; [contradiction|].
  intros [->|H]; [lia|]. specialize (IH H). lia.
Qed.

(** The conversions of [to_dict] never deepen a value: an instance
    becomes a dictionary of its converted fields. *)
Lemma rank_to_dict (v : value) :
  rank (to_dict_item v) <= rank v /\ rank (to_dict_value v) <= rank v.
Proof.
  induction v as [| | |xs IH|items IH|c b g p d [_ Hb] [_ Hg] [_ Hp] _]
    using value_ind; simpl; try (split; lia).
  - split; [lia|]. apply le_n_S.
    induction IH as [|x xs [Hx _] _ IHxs]; simpl; lia.
  - split; [lia|]. apply le_n_S.
    induction IH as [|x xs [Hx _] _ IHxs]; simpl; lia.
Qed.

Lemma rank_to_dict_object (o : JobShardingConfig) :
  rank (to_dict_object o) <= S (rank_object o).
Proof.
  destruct o as [c b g p d]. simpl.
  pose proof (proj2 (rank_to_dict b)). pose proof (proj2 (rank_to_dict g)).
  pose proof (proj2 (rank_to_dict p)). lia.
Qed.

(** Enough fuel: from [rank a] on, more fuel changes nothing. *)
Lemma py_eq_fuel_stable (n : nat) :
  forall m a b,
    rank a <= n -> rank a <= m -> py_eq_fuel n a b = py_eq_fuel m a b.
Proof.
  induction n as [|n IH]; intros m a b Hn Hm.
  - pose proof (rank_pos a). lia.
  - destruct m as [|m]; [pose proof (rank_pos a); lia|].
    destruct a, b; simpl in *; try reflexivity.
    + apply list_eqb_ext. intros x y Hx. apply rank_element in Hx.
      apply IH; lia.
    + apply dict_eqb_ext. intros k v w Hv. apply rank_binding in Hv.
      simpl in Hv. apply IH; lia.
    + pose proof (rank_to_dict_object o). apply IH; lia.
Qed.

Lemma py_eq_fuel_enough (n : nat) (a b : value) :
  rank a <= n -> py_eq_fuel n a b = py_eq a b.
Proof. intros H. unfold py_eq. now apply py_eq_fuel_stable. Qed.

(** The comparison, read without fuel. *)
Lemma py_eq_list (xs ys : list value) :
  py_eq (VList xs) (VList ys) = list_eqb py_eq xs ys.
Proof.
  unfold py_eq at 1. simpl. apply list_eqb_ext. intros x y Hx.
  apply py_eq_fuel_enough. now apply rank_element.
Qed.

Lemma py_eq_dict (d1 d2 : list (string * value)) :
  py_eq (VDict d1) (VDict d2) = Dict.eqb py_eq d1 d2.
Proof.
  unfold py_eq at 1. simpl. apply dict_eqb_ext. intros k v w Hv.
  apply py_eq_fuel_enough. now apply (rank_binding (k, v)).
Qed.

Lemma py_eq_object (o1 o2 : JobShardingConfig) :
  py_eq (VObject o1) (VObject o2)
  = py_eq (to_dict_object o1) (to_dict_object o2).
Proof.
  unfold py_eq at 1.
  change (py_eq_fuel (S (rank_object o1)) (to_dict_object o1)
                     (to_dict_object o2)
          = py_eq (to_dict_object o1) (to_dict_object o2)).
  apply py_eq_fuel_enough, rank_to_dict_object.
Qed.

(** ** Python equality on the universe *)

Lemma list_eqb_refl_in (V : Type) (f : V -> V -> bool) (xs : list V) :
  (forall x, In x xs -> f x x = true) -> list_eqb f xs xs = true.
Proof.
  induction xs as [|x xs IH]; simpl; intros H; [reflexivity|].
  rewrite (H x) by now left. apply IH. intros y Hy. apply H. now right.
Qed.

Lemma dict_eqb_refl_in (V : Type) (f : V -> V -> bool) (d : list (string * V)) :
  (forall k v, In (k, v) d -> f v v = true) -> Dict.eqb f d d = true.
Proof.
  intros H. unfold Dict.eqb. rewrite Nat.eqb_refl. simpl.
  apply forallb_forall. intros k Hk.
  destruct (keys_from_get _ k d [] Hk) as [v Hv]. rewrite Hv.
  apply (H k). now apply get_In.
Qed.

Lemma py_eq_fuel_refl (n : nat) :
  forall a, rank a <= n -> py_eq_fuel n a a = true.
Proof.
  induction n as [|n IH]; intros a Hn.
  - pose proof (rank_pos a). lia.
  - destruct a; simpl in *.
    + reflexivity.
    + apply Z.eqb_refl.
    + apply String.eqb_refl.
    + apply list_eqb_refl_in. intros x Hx. apply rank_element in Hx.
      apply IH. lia.
    + apply dict_eqb_refl_in. intros k v Hv. apply rank_binding in Hv.
      simpl in Hv. apply IH. lia.
    + pose proof (rank_to_dict_object o). apply IH. lia.
Qed.

Lemma py_eq_refl (a : value) : py_eq a a = true.
Proof. apply py_eq_fuel_refl. lia. Qed.

(** On the declared types and [None], [==] is identity of values. *)
Lemma py_eq_scalar (a b : value) :
  is_scalar a = true -> py_eq a b = true -> a = b.
Proof.
  destruct a, b; try discriminate; intros _; unfold py_eq; simpl;
    try discriminate.
  - reflexivity.
  - intros H. apply Z.eqb_eq in H. now subst.
  - intros H. apply String.eqb_eq in H. now subst.
Qed.

Lemma to_dict_value_scalar (v : value) :
  is_scalar v = true -> to_dict_value v = v.
Proof. destruct v; try discriminate; reflexivity. Qed.

(** Equal values convert to equal values. *)
Lemma py_eq_to_dict_item (x y : value) :
  py_eq x y = true -> py_eq (to_dict_item x) (to_dict_item y) = true.
Proof.
  destruct x, y; intros H; try exact H;
    try (unfold py_eq in H; simpl in H; discriminate).
  rewrite py_eq_object in H. exact H.
Qed.

Lemma list_eqb_map (V : Type) (f : V -> V -> bool) (h : V -> V) (xs : list V) :
  (forall x y, f x y = true -> f (h x) (h y) = true) ->
  forall ys, list_eqb f xs ys = true ->
             list_eqb f (map h xs) (map h ys) = true.
Proof.
  intros Hh. induction xs as [|x xs IH]; intros [|y ys]; simpl;
    try discriminate; [reflexivity|].
  intros H. apply andb_true_iff in H as [Hxy H].
  rewrite (Hh _ _ Hxy). now apply IH.
Qed.

Lemma dict_eqb_map (V : Type) (f : V -> V -> bool) (h : V -> V)
    (d1 d2 : list (string * V)) :
  (forall x y, f x y = true -> f (h x) (h y) = true) ->
  Dict.eqb f d1 d2 = true ->
  Dict.eqb f (map (fun item => (fst item, h (snd item))) d1)
             (map (fun item => (fst item, h (snd item))) d2) = true.
Proof.
  intros Hh. unfold Dict.eqb, Dict.len, Dict.keys.
  rewrite !keys_from_map. intros H. apply andb_true_iff in H as [Hlen H].
  rewrite Hlen. simpl. rewrite forallb_forall in *. intros k Hk.
  specialize (H k Hk). rewrite !get_map.
  destruct (Dict.get k d1), (Dict.get k d2); simpl; try discriminate.
  now apply Hh.
Qed.

Lemma py_eq_to_dict_value (a b : value) :
  py_eq a b = true -> py_eq (to_dict_value a) (to_dict_value b) = true.
Proof.
  destruct a, b; intros H; try exact H;
    try (unfold py_eq in H; simpl in H; discriminate).
  - simpl. rewrite py_eq_list in *.
    now apply list_eqb_map; [apply py_eq_to_dict_item|].
  - simpl. rewrite py_eq_dict in *.
    now apply dict_eqb_map; [apply py_eq_to_dict_item|].
  - rewrite py_eq_object in H. exact H.
Qed.

(** ** [to_dict] and [__eq__], field by field *)

(** Every key of [swagger_types] is a property of the class: the
    [getattr] of the loop never raises. *)
Lemma getattr_swagger_types (self : JobShardingConfig) :
  Forall (fun item => getattr self (fst item) <> None) swagger_types.
Proof. repeat constructor; discriminate. Qed.

Lemma to_dict_fields (c : Configuration) (b g p d : value) :
  to_dict (Instance c b g p d)
  = [ ("batch_size", to_dict_value b);
      ("glob_pattern", to_dict_value g);
      ("glob_pattern_base_path", to_dict_value p) ].
Proof. reflexivity. Qed.

(** The [to_dict()] of an instance met inside a value is the method. *)
Lemma to_dict_object_eq (o : JobShardingConfig) :
  to_dict_object o = VDict (to_dict o).
Proof. destruct o. reflexivity. Qed.

Lemma init_fields (b g p : value) (c : option Configuration) :
  __init__ b g p c
  = Instance (match c with None => Configuration_new | Some c' => c' end)
             b g p VNone.
Proof. unfold __init__. destruct b, g, p; reflexivity. Qed.

Lemma eq_fields (x y : JobShardingConfig) :
  __eq__ x (VObject y)
  = py_eq (to_dict_value (batch_size x)) (to_dict_value (batch_size y))
    && (py_eq (to_dict_value (glob_pattern x)) (to_dict_value (glob_pattern y))
        && py_eq (to_dict_value (glob_pattern_base_path x))
                 (to_dict_value (glob_pattern_base_path y))).
Proof.
  destruct x as [c b g p d], y as [c' b' g' p' d'].
  unfold __eq__. simpl isinstance_JobShardingConfig. cbv iota.
  rewrite !to_dict_fields, py_eq_dict.
  unfold Dict.eqb, Dict.len, Dict.keys. simpl.
  now rewrite andb_true_r.
Qed.

(** ** Symmetry of [==] *)

Lemma existsb_eqb_In (k : string) (seen : list string) :
  existsb (String.eqb k) seen = true <-> In k seen.
Proof.
  rewrite existsb_exists. split.
  - intros [k' [Hin E]]. apply String.eqb_eq in E. now subst.
  - intros H. exists k. split; [exact H | apply String.eqb_refl].
Qed.

Lemma keys_from_spec (V : Type) (k : string) (d : list (string * V)) :
  forall seen,
    In k (Dict.keys_from seen d)
    <-> ~ In k seen /\ exists v, Dict.get k d = Some v.
Proof.
  induction d as [|[k' v'] d IH]; simpl; intros seen.
  - split; [contradiction | intros [_ [v H]]; discriminate].
  - destruct (existsb (String.eqb k') seen) eqn:Eseen.
    + apply existsb_eqb_In in Eseen. rewrite IH.
      destruct (String.eqb k k') eqn:E; [|reflexivity].
      apply String.eqb_eq in E. subst k'. split; intros [Hn _]; contradiction.
    + assert (Hk' : ~ In k' seen).
      { intros H. apply existsb_eqb_In in H. congruence. }
      simpl. rewrite IH. simpl.
      destruct (String.eqb k k') eqn:E.
      * apply String.eqb_eq in E. subst k'. split; [|now left].
        intros _. split; [exact Hk' | now exists v'].
      * apply String.eqb_neq in E. split.
        -- intros [->|[Hn Hv]]; [congruence|]. split; [tauto | exact Hv].
        -- intros [Hn Hv]. right. split; [|exact Hv].
           intros [->|H]; [congruence | contradiction].
Qed.

Lemma keys_from_NoDup (V : Type) (d : list (string * V)) :
  forall seen, NoDup (Dict.keys_from seen d).
Proof.
  induction d as [|[k v] d IH]; simpl; intros seen; [constructor|].
  destruct (existsb (String.eqb k) seen); [apply IH|].
  constructor; [|apply IH].
  rewrite keys_from_spec. intros [Hn _]. apply Hn. now left.
Qed.

Lemma keys_get (V : Type) (k : string) (d : list (string * V)) :
  In k (Dict.keys d) <-> exists v, Dict.get k d = Some v.
Proof. unfold Dict.keys. rewrite keys_from_spec. simpl. tauto. Qed.

Lemma list_eqb_swap (V : Type) (f g : V -> V -> bool) (xs : list V) :
  forall ys,
    (forall x y, In x xs -> In y ys -> f x y = true -> g y x = true) ->
    list_eqb f xs ys = true -> list_eqb g ys xs = true.
Proof.
  induction xs as [|x xs IH]; intros [|y ys] Hfg; simpl; try discriminate;
    [reflexivity|].
  intros H. apply andb_true_iff in H as [Hxy H].
  rewrite (Hfg x y) by (simpl; tauto). simpl. apply IH; [|exact H].
  intros x' y' Hx Hy. apply Hfg; simpl; tauto.
Qed.

Lemma dict_eqb_swap (V : Type) (f g : V -> V -> bool)
    (d1 d2 : list (string * V)) :
  (forall k v w, In (k, v) d1 -> In (k, w) d2 -> f v w = true -> g w v = true) ->
  Dict.eqb f d1 d2 = true -> Dict.eqb g d2 d1 = true.
Proof.
  intros Hfg. unfold Dict.eqb, Dict.len. intros H.
  apply andb_true_iff in H as [Hlen H]. apply Nat.eqb_eq in Hlen.
  rewrite forallb_forall in H.
  assert (Hincl : incl (Dict.keys d1) (Dict.keys d2)).
  { intros k Hk. specialize (H k Hk). apply keys_get.
    destruct (Dict.get k d1); [|discriminate].
    destruct (Dict.get k d2) as [w|]; [now exists w | discriminate]. }
  assert (Hback : incl (Dict.keys d2) (Dict.keys d1)).
  { apply NoDup_length_incl; [apply keys_from_NoDup | lia | exact Hincl]. }
  rewrite Hlen, Nat.eqb_refl. simpl. apply forallb_forall. intros k Hk.
  specialize (H k (Hback k Hk)).
  destruct (Dict.get k d1) as [v|] eqn:E1; [|discriminate].
  destruct (Dict.get k d2) as [w|] eqn:E2; [|discriminate].
  apply (Hfg k); [now apply get_In | now apply get_In | exact H].
Qed.

Lemma py_eq_fuel_swap (n : nat) :
  forall a b,
    rank a <= n -> rank b <= n ->
    py_eq_fuel n a b = true -> py_eq_fuel n b a = true.
Proof.
  induction n as [|n IH]; intros a b Ha Hb; [discriminate|].
  destruct a, b; simpl in *; try discriminate; try reflexivity.
  - now rewrite Z.eqb_sym.
  - now rewrite String.eqb_sym.
  - apply list_eqb_swap. intros x y Hx Hy.
    apply rank_element in Hx, Hy. apply IH; lia.
  - apply dict_eqb_swap. intros k v w Hv Hw.
    apply rank_binding in Hv, Hw. simpl in Hv, Hw. apply IH; lia.
  - pose proof (rank_to_dict_object o). pose proof (rank_to_dict_object o0).
    apply IH; lia.
Qed.

Lemma py_eq_sym (a b : value) : py_eq a b = py_eq b a.
Proof.
  set (n := Nat.max (rank a) (rank b)).
  rewrite <- (py_eq_fuel_enough n a b), <- (py_eq_fuel_enough n b a)
    by (unfold n; lia).
  destruct (py_eq_fuel n a b) eqn:Eab, (py_eq_fuel n b a) eqn:Eba;
    try reflexivity.
  - apply py_eq_fuel_swap in Eab; [congruence | unfold n; lia..].
  - apply py_eq_fuel_swap in Eba; [congruence | unfold n; lia..].
Qed.

(** ** Instances with the same fields *)

Lemma to_dict_same_fields (x y : JobShardingConfig) :
  batch_size x = batch_size y ->
  glob_pattern x = glob_pattern y ->
  glob_pattern_base_path x = glob_pattern_base_path y ->
  to_dict x = to_dict y.
Proof.
  destruct x as [c b g p d], y as [c' b' g' p' d']. simpl.
  intros -> -> ->. now rewrite !to_dict_fields.
Qed.

Lemma eq_same_to_dict (x y : JobShardingConfig) :
  to_dict x = to_dict y -> __eq__ x (VObject y) = true.
Proof. intros H. unfold __eq__. simpl. rewrite H. apply py_eq_refl. Qed.

Lemma same_fields_indistinguishable (x y : JobShardingConfig) :
  batch_size x = batch_size y ->
  glob_pattern x = glob_pattern y ->
  glob_pattern_base_path x = glob_pattern_base_path y ->
  indistinguishable x y.
Proof.
  intros Hb Hg Hp. pose proof (to_dict_same_fields x y Hb Hg Hp) as H.
  unfold indistinguishable, to_str. repeat split.
  - exact H.
  - now rewrite H.
  - now apply eq_same_to_dict.
  - now apply eq_same_to_dict.
  - intros other. unfold __eq__. now rewrite H.
  - intros o. unfold __eq__. simpl. now rewrite H.
Qed.

(** ** Serialization of a constructed instance *)

(** C1, as the code has it.  Whatever fields a call supplies, [to_dict()]
    of the new instance has the three attribute names [batch_size],
    [glob_pattern], [glob_pattern_base_path] as its keys, in that order:
    the keys of [attribute_map], not its external names.  A supplied
    field is bound to its converted value, a field left out to [None];
    the conversion leaves [None], an integer and a string as they are. *)
Theorem to_dict_new_attribute_names
    (b g p : option value) (c : option Configuration) :
  to_dict (new b g p c)
  = [ ("batch_size", to_dict_value (default_arg b));
      ("glob_pattern", to_dict_value (default_arg g));
      ("glob_pattern_base_path", to_dict_value (default_arg p)) ]
  /\ map fst (to_dict (new b g p c)) = map fst attribute_map
  /\ to_dict_value VNone = VNone
  /\ (forall n, to_dict_value (VInt n) = VInt n)
  /\ (forall t, to_dict_value (VStr t) = VStr t).
Proof.
  unfold new. rewrite init_fields, to_dict_fields.
  repeat split; reflexivity.
Qed.

(** C2, as the code has it.  The instance built with batch_size=10,
    glob_pattern="/*", glob_pattern_base_path="/data" serializes to
    the mapping of the attribute names [batch_size], [glob_pattern],
    [glob_pattern_base_path] to 10, "/*" and "/data". *)
Theorem to_dict_example (c : option Configuration) :
  to_dict (new (Some (VInt 10)) (Some (VStr "/*")) (Some (VStr "/data")) c)
  = [ ("batch_size", VInt 10);
      ("glob_pattern", VStr "/*");
      ("glob_pattern_base_path", VStr "/data") ].
Proof. unfold new. now rewrite init_fields, to_dict_fields. Qed.

(** C3.  The instance built with no arguments serializes to a mapping
    in which the three field keys are present, each bound to [None]. *)
Theorem to_dict_no_arguments (c : option Configuration) :
  to_dict (new None None None c)
  = [ ("batch_size", VNone);
      ("glob_pattern", VNone);
      ("glob_pattern_base_path", VNone) ]
  /\ map fst (to_dict (new None None None c)) = map fst swagger_types
  /\ Forall (fun item => snd item = VNone) (to_dict (new None None None c)).
Proof.
  unfold new. rewrite init_fields, to_dict_fields.
  repeat split. repeat constructor.
Qed.

(** ** Equality *)

(** C4, as the code has it.  Two instances whose three field values are
    pairwise equal are equal, however the values came to be there.
    Changing one field to a different value makes the instance and the
    original unequal, in both directions, when [to_dict] stores the old
    and the new value unchanged (as it does [None], integers and
    strings). *)
Theorem eq_follows_field_values :
  (forall x y,
      py_eq (batch_size x) (batch_size y) = true ->
      py_eq (glob_pattern x) (glob_pattern y) = true ->
      py_eq (glob_pattern_base_path x) (glob_pattern_base_path y) = true ->
      __eq__ x (VObject y) = true)
  /\ (forall x v,
        to_dict_value (batch_size x) = batch_size x ->
        to_dict_value v = v ->
        py_eq (batch_size x) v = false ->
        __eq__ (batch_size_setter x v) (VObject x) = false
        /\ __eq__ x (VObject (batch_size_setter x v)) = false)
  /\ (forall x v,
        to_dict_value (glob_pattern x) = glob_pattern x ->
        to_dict_value v = v ->
        py_eq (glob_pattern x) v = false ->
        __eq__ (glob_pattern_setter x v) (VObject x) = false
        /\ __eq__ x (VObject (glob_pattern_setter x v)) = false)
  /\ (forall x v,
        to_dict_value (glob_pattern_base_path x) = glob_pattern_base_path x ->
        to_dict_value v = v ->
        py_eq (glob_pattern_base_path x) v = false ->
        __eq__ (glob_pattern_base_path_setter x v) (VObject x) = false
        /\ __eq__ x (VObject (glob_pattern_base_path_setter x v)) = false).
Proof.
  split; [|split; [|split]].
  - intros x y Hb Hg Hp. rewrite eq_fields.
    now rewrite !py_eq_to_dict_value.
  - intros [c b g p d] v Hold Hnew Hdiff. simpl in *.
    rewrite !eq_fields. simpl.
    rewrite Hold, Hnew, (py_eq_sym v b), Hdiff. now split.
  - intros [c b g p d] v Hold Hnew Hdiff. simpl in *.
    rewrite !eq_fields. simpl.
    rewrite Hold, Hnew, (py_eq_sym v g), Hdiff.
    now rewrite !andb_false_r.
  - intros [c b g p d] v Hold Hnew Hdiff. simpl in *.
    rewrite !eq_fields. simpl.
    rewrite Hold, Hnew, (py_eq_sym v p), Hdiff.
    now rewrite !andb_false_r.
Qed.

(** C5.  Against a value that is no [JobShardingConfig], [__eq__]
    returns false and [__ne__] returns true; both are total, so neither
    comparison raises. *)
Theorem eq_ne_other_type (self : JobShardingConfig) (other : value) :
  isinstance_JobShardingConfig other = None ->
  __eq__ self other = false /\ __ne__ self other = true.
Proof. intros H. unfold __eq__, __ne__. now rewrite H. Qed.

(** C8.  On every pair of an instance and a value, [__ne__] is the
    negation of [__eq__]. *)
Theorem ne_is_not_eq (self : JobShardingConfig) (other : value) :
  __ne__ self other = negb (__eq__ self other).
Proof.
  unfold __ne__, __eq__, py_ne.
  now destruct (isinstance_JobShardingConfig other).
Qed.

(** ** String form *)

(** C6.  [to_str()] depends on the three field values only: instances
    with the same field values have the same string, whatever else
    they hold, and so does one instance asked twice.  [__repr__] is the
    same string. *)
Theorem to_str_function_of_fields (x y : JobShardingConfig) :
  batch_size x = batch_size y ->
  glob_pattern x = glob_pattern y ->
  glob_pattern_base_path x = glob_pattern_base_path y ->
  to_str x = to_str y /\ __repr__ x = __repr__ y.
Proof.
  intros Hb Hg Hp. unfold __repr__, to_str.
  now rewrite (to_dict_same_fields x y Hb Hg Hp).
Qed.

(** ** Accessors *)

(** C7.  Each setter stores the value it is given, whatever it is, and
    touches nothing else: the getter of that field returns the value,
    and the two other fields, the configuration and the discriminator
    are as before. *)
Theorem setter_then_getter (self : JobShardingConfig) (v : value) :
  (batch_size (batch_size_setter self v) = v
   /\ glob_pattern (batch_size_setter self v) = glob_pattern self
   /\ glob_pattern_base_path (batch_size_setter self v)
      = glob_pattern_base_path self
   /\ _configuration (batch_size_setter self v) = _configuration self
   /\ discriminator (batch_size_setter self v) = discriminator self)
  /\ (glob_pattern (glob_pattern_setter self v) = v
      /\ batch_size (glob_pattern_setter self v) = batch_size self
      /\ glob_pattern_base_path (glob_pattern_setter self v)
         = glob_pattern_base_path self
      /\ _configuration (glob_pattern_setter self v) = _configuration self
      /\ discriminator (glob_pattern_setter self v) = discriminator self)
  /\ (glob_pattern_base_path (glob_pattern_base_path_setter self v) = v
      /\ batch_size (glob_pattern_base_path_setter self v) = batch_size self
      /\ glob_pattern (glob_pattern_base_path_setter self v)
         = glob_pattern self
      /\ _configuration (glob_pattern_base_path_setter self v)
         = _configuration self
      /\ discriminator (glob_pattern_base_path_setter self v)
         = discriminator self).
Proof. destruct self as [c b g p d]. repeat split. Qed.

(** ** Constructor arguments *)

(** C9.  For each field, passing [None] for it and leaving it out build
    the same instance: the field holds [None], and [to_dict()],
    [to_str()] and [__eq__] tell no difference. *)
Theorem explicit_None_is_omitted
    (b g p : option value) (c : option Configuration) :
  (new (Some VNone) g p c = new None g p c
   /\ _batch_size (new (Some VNone) g p c) = VNone
   /\ _batch_size (new None g p c) = VNone
   /\ indistinguishable (new (Some VNone) g p c) (new None g p c))
  /\ (new b (Some VNone) p c = new b None p c
      /\ _glob_pattern (new b (Some VNone) p c) = VNone
      /\ _glob_pattern (new b None p c) = VNone
      /\ indistinguishable (new b (Some VNone) p c) (new b None p c))
  /\ (new b g (Some VNone) c = new b g None c
      /\ _glob_pattern_base_path (new b g (Some VNone) c) = VNone
      /\ _glob_pattern_base_path (new b g None c) = VNone
      /\ indistinguishable (new b g (Some VNone) c) (new b g None c)).
Proof.
  unfold new. simpl default_arg. rewrite !init_fields.
  repeat split; try reflexivity;
    apply same_fields_indistinguishable; reflexivity.
Qed.

(** C10.  The [_configuration] argument shows in no output: instances
    built from the same field arguments with different configurations,
    and any two instances that differ in the configuration alone, have
    the same [to_dict()] and [to_str()] and are equal under [__eq__]. *)
Theorem configuration_not_observable :
  (forall b g p c1 c2,
      indistinguishable (__init__ b g p c1) (__init__ b g p c2))
  /\ (forall c1 c2 b g p d,
        indistinguishable (Instance c1 b g p d) (Instance c2 b g p d)).
Proof.
  split; intros.
  - rewrite !init_fields. apply same_fields_indistinguishable; reflexivity.
  - apply same_fields_indistinguishable; reflexivity.
Qed.

(** * Further properties of the class *)

(** ** Transitivity of [==] *)

Lemma list_eqb_chain (V : Type) (f : V -> V -> bool) (xs : list V) :
  forall ys zs,
    (forall x y z, In x xs -> In y ys ->
                   f x y = true -> f y z = true -> f x z = true) ->
    list_eqb f xs ys = true -> list_eqb f ys zs = true ->
    list_eqb f xs zs = true.
Proof.
  induction xs as [|x xs IH]; intros [|y ys] [|z zs] Hf; simpl;
    try discriminate; try reflexivity.
  intros H1 H2. apply andb_true_iff in H1 as [Hxy H1].
  apply andb_true_iff in H2 as [Hyz H2].
  rewrite (Hf x y z) by (simpl; tauto). simpl.
  apply (IH ys zs); [|exact H1|exact H2].
  intros x' y' z' Hx Hy. apply Hf; simpl; tauto.
Qed.

Lemma dict_eqb_chain (V : Type) (f : V -> V -> bool)
    (d1 d2 d3 : list (string * V)) :
  (forall k v w u, In (k, v) d1 -> In (k, w) d2 ->
                   f v w = true -> f w u = true -> f v u = true) ->
  Dict.eqb f d1 d2 = true -> Dict.eqb f d2 d3 = true ->
  Dict.eqb f d1 d3 = true.
Proof.
  intros Hf. unfold Dict.eqb. intros H1 H2.
  apply andb_true_iff in H1 as [L1 H1]. apply andb_true_iff in H2 as [L2 H2].
  apply Nat.eqb_eq in L1, L2. rewrite forallb_forall in H1, H2.
  apply andb_true_iff. split; [apply Nat.eqb_eq; lia|].
  apply forallb_forall. intros k Hk. specialize (H1 k Hk).
  destruct (Dict.get k d1) as [v|] eqn:E1; [|discriminate].
  destruct (Dict.get k d2) as [w|] eqn:E2; [|discriminate].
  assert (Hk2 : In k (Dict.keys d2)) by (apply keys_get; now exists w).
  specialize (H2 k Hk2). rewrite E2 in H2.
  destruct (Dict.get k d3) as [u|]; [|discriminate].
  apply (Hf k v w u); auto using get_In.
Qed.

Lemma py_eq_fuel_chain (n : nat) :
  forall a b c,
    rank a <= n -> rank b <= n ->
    py_eq_fuel n a b = true -> py_eq_fuel n b c = true ->
    py_eq_fuel n a c = true.
Proof.
  induction n as [|n IH]; intros a b c Ha Hb; [discriminate|].
  destruct a, b; simpl in *; try discriminate; destruct c; simpl;
    try discriminate; try reflexivity.
  - intros H1 H2. apply Z.eqb_eq in H1, H2. subst. apply Z.eqb_refl.
  - intros H1 H2. apply String.eqb_eq in H1, H2. subst. apply String.eqb_refl.
  - apply list_eqb_chain. intros x y z Hx Hy.
    apply rank_element in Hx, Hy. apply IH; lia.
  - apply dict_eqb_chain. intros k v w u Hv Hw.
    apply rank_binding in Hv, Hw. simpl in Hv, Hw. apply IH; lia.
  - pose proof (rank_to_dict_object o). pose proof (rank_to_dict_object o0).
    apply IH; lia.
Qed.

Lemma py_eq_trans (a b c : value) :
  py_eq a b = true -> py_eq b c = true -> py_eq a c = true.
Proof.
  set (n := Nat.max (rank a) (rank b)).
  rewrite <- (py_eq_fuel_enough n a b), <- (py_eq_fuel_enough n b c),
    <- (py_eq_fuel_enough n a c) by (unfold n; lia).
  apply py_eq_fuel_chain; unfold n; lia.
Qed.

(** ** What the conversions of [to_dict] leave behind *)

Lemma to_dict_item_plain (x : value) :
  isinstance_JobShardingConfig (to_dict_item x) = None.
Proof. destruct x as [| | | | |[c b g p d]]; reflexivity. Qed.

Lemma to_dict_value_plain (v : value) :
  isinstance_JobShardingConfig (to_dict_value v) = None.
Proof. destruct v as [| | | | |[c b g p d]]; reflexivity. Qed.

Lemma to_dict_item_of_plain (x : value) :
  isinstance_JobShardingConfig x = None -> to_dict_item x = x.
Proof. destruct x; try reflexivity. discriminate. Qed.

Lemma to_dict_item_twice (x : value) :
  to_dict_item (to_dict_item x) = to_dict_item x.
Proof. apply to_dict_item_of_plain, to_dict_item_plain. Qed.

Lemma to_dict_item_value (v : value) :
  to_dict_item (to_dict_value v) = to_dict_value v.
Proof. apply to_dict_item_of_plain, to_dict_value_plain. Qed.

Lemma to_dict_value_twice (v : value) :
  to_dict_value (to_dict_value v) = to_dict_value v.
Proof.
  destruct v as [| | |xs|items|[c b g p d]]; try reflexivity; simpl.
  - f_equal. rewrite map_map. apply map_ext. intros x.
    apply to_dict_item_twice.
  - f_equal. rewrite map_map. apply map_ext. intros [k x]. simpl.
    now rewrite to_dict_item_twice.
  - now rewrite !to_dict_item_value.
Qed.

(** ** The result of [to_dict], key by key *)

(** X1.  For every instance and every key, [to_dict()] binds the key
    exactly when it is a key of [swagger_types], to the converted value
    of the attribute of that name; its keys are those of
    [swagger_types], each once and in that order.  So [discriminator]
    and [_configuration] never show in the result. *)
Theorem to_dict_lookup (self : JobShardingConfig) (k : string) :
  Dict.get k (to_dict self)
  = match Dict.get k swagger_types with
    | Some _ => option_map to_dict_value (getattr self k)
    | None => None
    end
  /\ Dict.keys (to_dict self) = map fst swagger_types.
Proof.
  destruct self as [c b g p d]. rewrite to_dict_fields.
  split; [|reflexivity]. unfold getattr. simpl.
  destruct (String.eqb k "batch_size"); [reflexivity|].
  destruct (String.eqb k "glob_pattern"); [reflexivity|].
  destruct (String.eqb k "glob_pattern_base_path"); reflexivity.
Qed.

(** X2.  Assigning a field changes the entry of that field in
    [to_dict()] and nothing else: the new result is the old one with
    the key of the field rebound to the converted value. *)
Theorem setter_updates_to_dict (self : JobShardingConfig) (v : value) :
  to_dict (batch_size_setter self v)
  = Dict.set "batch_size" (to_dict_value v) (to_dict self)
  /\ to_dict (glob_pattern_setter self v)
     = Dict.set "glob_pattern" (to_dict_value v) (to_dict self)
  /\ to_dict (glob_pattern_base_path_setter self v)
     = Dict.set "glob_pattern_base_path" (to_dict_value v) (to_dict self).
Proof.
  destruct self as [c b g p d]. simpl. rewrite !to_dict_fields.
  repeat split.
Qed.

(** ** Constructor and setters *)

(** X3.  Constructing with three field arguments is constructing with
    none and then assigning the three fields through their setters, in
    either order of the assignments; this holds for [None] arguments
    too, which the constructor skips. *)
Theorem init_as_setters (b g p : value) (c : option Configuration) :
  __init__ b g p c
  = glob_pattern_base_path_setter
      (glob_pattern_setter
         (batch_size_setter (__init__ VNone VNone VNone c) b) g) p
  /\ __init__ b g p c
     = batch_size_setter
         (glob_pattern_setter
            (glob_pattern_base_path_setter (__init__ VNone VNone VNone c) p)
            g) b.
Proof. rewrite !init_fields. split; reflexivity. Qed.

(** X4.  Setters of different fields commute, and a second assignment
    to a field overrides the first. *)
Theorem setters_commute_and_override (self : JobShardingConfig) (v w : value) :
  (batch_size_setter (glob_pattern_setter self v) w
   = glob_pattern_setter (batch_size_setter self w) v
   /\ batch_size_setter (glob_pattern_base_path_setter self v) w
      = glob_pattern_base_path_setter (batch_size_setter self w) v
   /\ glob_pattern_setter (glob_pattern_base_path_setter self v) w
      = glob_pattern_base_path_setter (glob_pattern_setter self w) v)
  /\ (batch_size_setter (batch_size_setter self v) w
      = batch_size_setter self w
      /\ glob_pattern_setter (glob_pattern_setter self v) w
         = glob_pattern_setter self w
      /\ glob_pattern_base_path_setter
           (glob_pattern_base_path_setter self v) w
         = glob_pattern_base_path_setter self w).
Proof. destruct self as [c b g p d]. repeat split. Qed.

(** ** The conversion of [to_dict] *)

(** X5.  Converting twice is converting once, and a converted value is
    never an instance: every value in the result of [to_dict()] is no
    [JobShardingConfig] and is left as it is by a further conversion. *)
Theorem to_dict_conversion_idempotent :
  (forall v, to_dict_value (to_dict_value v) = to_dict_value v
             /\ isinstance_JobShardingConfig (to_dict_value v) = None)
  /\ (forall self,
         Forall (fun item =>
                   isinstance_JobShardingConfig (snd item) = None
                   /\ to_dict_value (snd item) = snd item)
                (to_dict self)).
Proof.
  split.
  - intros v. split; [apply to_dict_value_twice | apply to_dict_value_plain].
  - intros [c b g p d]. rewrite to_dict_fields.
    repeat constructor; simpl;
      auto using to_dict_value_plain, to_dict_value_twice.
Qed.

(** X6.  The conversion looks one level down and no further: a list
    none of whose elements is an instance, and a dictionary none of
    whose values is one, are stored as they are, whatever the elements
    hold inside. *)
Theorem to_dict_conversion_shallow :
  (forall xs,
      Forall (fun x => isinstance_JobShardingConfig x = None) xs ->
      to_dict_value (VList xs) = VList xs)
  /\ (forall items,
         Forall (fun item => isinstance_JobShardingConfig (snd item) = None)
                items ->
         to_dict_value (VDict items) = VDict items).
Proof.
  split.
  - intros xs H. simpl. f_equal. induction H as [|x xs Hx _ IH]; simpl;
      [reflexivity|]. now rewrite IH, (to_dict_item_of_plain x Hx).
  - intros items H. simpl. f_equal.
    induction H as [|[k x] items Hx _ IH]; simpl; [reflexivity|].
    simpl in Hx. now rewrite IH, (to_dict_item_of_plain x Hx).
Qed.

(** X7.  Round trip through the constructor: the instance built from
    the three entries of [self.to_dict()], passed to the constructor
    as keyword arguments, has the same [to_dict()] as [self] and is
    equal to it, in both directions. *)
Theorem to_dict_round_trip (self : JobShardingConfig)
    (c : option Configuration) :
  to_dict (new (Dict.get "batch_size" (to_dict self))
               (Dict.get "glob_pattern" (to_dict self))
               (Dict.get "glob_pattern_base_path" (to_dict self)) c)
  = to_dict self
  /\ __eq__ (new (Dict.get "batch_size" (to_dict self))
                 (Dict.get "glob_pattern" (to_dict self))
                 (Dict.get "glob_pattern_base_path" (to_dict self)) c)
            (VObject self) = true
  /\ __eq__ self
            (VObject
               (new (Dict.get "batch_size" (to_dict self))
                    (Dict.get "glob_pattern" (to_dict self))
                    (Dict.get "glob_pattern_base_path" (to_dict self)) c))
     = true.
Proof.
  assert (H : to_dict (new (Dict.get "batch_size" (to_dict self))
                           (Dict.get "glob_pattern" (to_dict self))
                           (Dict.get "glob_pattern_base_path" (to_dict self))
                           c)
              = to_dict self).
  { destruct self as [c' b g p d]. rewrite to_dict_fields. unfold new.
    simpl Dict.get. simpl default_arg.
    now rewrite init_fields, !to_dict_fields, !to_dict_value_twice. }
  split; [exact H|]. split; apply eq_same_to_dict; congruence.
Qed.

(** ** [__eq__] as a relation on instances *)

(** X8.  [__eq__] is reflexive and symmetric on instances, and
    [__ne__] of an instance with itself is false. *)
Theorem eq_reflexive_symmetric (x y : JobShardingConfig) :
  __eq__ x (VObject x) = true
  /\ __ne__ x (VObject x) = false
  /\ __eq__ x (VObject y) = __eq__ y (VObject x).
Proof.
  unfold __ne__, __eq__, py_ne. simpl.
  rewrite py_eq_refl. repeat split. apply py_eq_sym.
Qed.

(** X9.  [__eq__] is transitive on instances. *)
Theorem eq_transitive (x y z : JobShardingConfig) :
  __eq__ x (VObject y) = true ->
  __eq__ y (VObject z) = true ->
  __eq__ x (VObject z) = true.
Proof. unfold __eq__. simpl. apply py_eq_trans. Qed.

(** X10.  An instance held in a field and the dictionary that instance
    serializes to are unequal values with the same conversion; so two
    instances that differ only in that one holds the instance and the
    other its dictionary, in any of the three fields, are equal. *)
Theorem nested_instance_and_its_dict
    (self o : JobShardingConfig) :
  py_eq (VObject o) (VDict (to_dict o)) = false
  /\ py_eq (VDict (to_dict o)) (VObject o) = false
  /\ to_dict_value (VObject o) = to_dict_value (VDict (to_dict o))
  /\ __eq__ (batch_size_setter self (VObject o))
            (VObject (batch_size_setter self (VDict (to_dict o)))) = true
  /\ __eq__ (glob_pattern_setter self (VObject o))
            (VObject (glob_pattern_setter self (VDict (to_dict o)))) = true
  /\ __eq__ (glob_pattern_base_path_setter self (VObject o))
            (VObject (glob_pattern_base_path_setter self (VDict (to_dict o))))
     = true.
Proof.
  assert (H : to_dict_value (VObject o) = to_dict_value (VDict (to_dict o))).
  { destruct o as [c b g p d]. rewrite to_dict_fields. simpl.
    now rewrite !to_dict_item_value. }
  split; [reflexivity|]. split; [reflexivity|]. split; [exact H|].
  destruct self as [c b g p d].
  repeat split; apply eq_same_to_dict; simpl; rewrite !to_dict_fields;
    now rewrite H.
Qed.

(** X11.  Equality survives assignment: when two instances are equal
    and the same field of each is assigned equal values, the two
    results are equal. *)
Theorem eq_respects_setters (x y : JobShardingConfig) (v w : value) :
  __eq__ x (VObject y) = true ->
  py_eq v w = true ->
  __eq__ (batch_size_setter x v) (VObject (batch_size_setter y w)) = true
  /\ __eq__ (glob_pattern_setter x v) (VObject (glob_pattern_setter y w))
     = true
  /\ __eq__ (glob_pattern_base_path_setter x v)
            (VObject (glob_pattern_base_path_setter y w)) = true.
Proof.
  intros Hxy Hvw. apply py_eq_to_dict_value in Hvw.
  rewrite eq_fields in Hxy. rewrite !eq_fields.
  destruct x as [c b g p d], y as [c' b' g' p' d']. simpl in *.
  apply andb_true_iff in Hxy as [Hb Hxy].
  apply andb_true_iff in Hxy as [Hg Hp].
  now rewrite Hvw, Hb, Hg, Hp.
Qed.

End Model.

(** * The model on concrete inputs

    The configuration class is taken with one object, or with two where
    two configurations are needed. *)

(** C1 as the specification words it fails for the call
    [JobShardingConfig(batch_size=10)]: the result has no key
    [BatchSize], its key is [batch_size], and the two fields left out
    are keys too, bound to [None]. *)
Lemma to_dict_keys_not_external :
  ~ same_mapping
      (to_dict (new tt (Some (VInt 10)) None None None))
      (spec_to_dict (Some (VInt 10)) None None)
  /\ Dict.get "BatchSize" (to_dict (new tt (Some (VInt 10)) None None None))
     = None
  /\ Dict.get "batch_size" (to_dict (new tt (Some (VInt 10)) None None None))
     = Some (VInt 10)
  /\ Dict.get "glob_pattern"
       (to_dict (new tt (Some (VInt 10)) None None None))
     = Some VNone.
Proof.
  repeat split. intros H. specialize (H "BatchSize"). discriminate H.
Qed.

(** C2 as the specification words it fails: the mapping with the keys
    [BatchSize], [GlobPattern], [GlobPatternBasePath] is not the result. *)
Lemma to_dict_example_not_external :
  ~ same_mapping
      (to_dict (new tt (Some (VInt 10)) (Some (VStr "/*"))
                    (Some (VStr "/data")) None))
      [ ("BatchSize", VInt 10);
        ("GlobPattern", VStr "/*");
        ("GlobPatternBasePath", VStr "/data") ].
Proof. intros H. specialize (H "BatchSize"). discriminate H. Qed.

(** C4 as the specification words it fails.  Take the instance whose
    [batch_size] is itself a fresh [JobShardingConfig()], and change
    that field to the dictionary this inner instance serializes to.
    The old and the new value are different values, yet the changed
    instance and the original are equal, in both directions. *)
Lemma eq_after_changed_field :
  py_eq (batch_size (new tt (Some (VObject (new tt None None None None)))
                         None None None))
        (VDict (to_dict (new tt None None None None))) = false
  /\ py_eq (VDict (to_dict (new tt None None None None)))
           (batch_size (new tt (Some (VObject (new tt None None None None)))
                            None None None)) = false
  /\ __eq__ (batch_size_setter
               (new tt (Some (VObject (new tt None None None None)))
                    None None None)
               (VDict (to_dict (new tt None None None None))))
            (VObject (new tt (Some (VObject (new tt None None None None)))
                          None None None)) = true
  /\ __eq__ (new tt (Some (VObject (new tt None None None None)))
                  None None None)
            (VObject
               (batch_size_setter
                  (new tt (Some (VObject (new tt None None None None)))
                       None None None)
                  (VDict (to_dict (new tt None None None None))))) = true.
Proof. vm_compute. repeat split. Qed.

(** The instance built with batch_size=10 and the one built empty and
    then given 10 by the setter are equal; setting 11 breaks it. *)
Lemma eq_follows_field_values_witness :
  __eq__ (new tt (Some (VInt 10)) None None None)
         (VObject (batch_size_setter (new tt None None None None) (VInt 10)))
  = true
  /\ __eq__ (batch_size_setter (new tt (Some (VInt 10)) None None None)
                               (VInt 11))
            (VObject (new tt (Some (VInt 10)) None None None)) = false
  /\ __eq__ (glob_pattern_setter (new tt None None None None) (VStr ""))
            (VObject (new tt None None None None)) = false
  /\ __eq__ (glob_pattern_base_path_setter
               (new tt None None (Some (VStr "/data")) None) (VStr "/mnt"))
            (VObject (new tt None None (Some (VStr "/data")) None)) = false.
Proof.
  destruct (@eq_follows_field_values unit) as [Hsame [Hb [Hg Hp]]].
  split; [|split; [|split]].
  - apply Hsame; reflexivity.
  - apply Hb; reflexivity.
  - apply Hg; reflexivity.
  - apply Hp; reflexivity.
Defined.

(** An integer is no [JobShardingConfig]. *)
Lemma eq_ne_other_type_witness :
  __eq__ (new tt (Some (VInt 3)) None None None) (VInt 3) = false
  /\ __ne__ (new tt (Some (VInt 3)) None None None) (VInt 3) = true.
Proof. apply eq_ne_other_type. reflexivity. Defined.

(** Two instances with the same fields and different configurations,
    printed by a [pformat] that lists the keys. *)
Lemma to_str_function_of_fields_witness :
  to_str (fun v => match v with
                   | VDict items => String.concat ", " (map fst items)
                   | _ => ""
                   end)
         (new true (Some (VInt 10)) None None (Some true))
  = to_str (fun v => match v with
                     | VDict items => String.concat ", " (map fst items)
                     | _ => ""
                     end)
           (new true (Some (VInt 10)) None None (Some false))
  /\ __repr__ (fun v => match v with
                        | VDict items => String.concat ", " (map fst items)
                        | _ => ""
                        end)
              (new true (Some (VInt 10)) None None (Some true))
     = __repr__ (fun v => match v with
                          | VDict items => String.concat ", " (map fst items)
                          | _ => ""
                          end)
                (new true (Some (VInt 10)) None None (Some false)).
Proof. apply to_str_function_of_fields; reflexivity. Defined.

(** An instance two lists deep, and one inside a list inside a
    dictionary, come out of the conversion as they went in. *)
Lemma to_dict_conversion_shallow_witness :
  to_dict_value (VList [VList [VObject (new tt None None None None)]])
  = VList [VList [VObject (new tt None None None None)]]
  /\ to_dict_value
       (VDict [("inputs", VList [VObject (new tt None None None None)])])
     = VDict [("inputs", VList [VObject (new tt None None None None)])].
Proof.
  destruct (@to_dict_conversion_shallow unit) as [Hlist Hdict].
  split; [apply Hlist | apply Hdict]; repeat constructor.
Defined.

(** Three instances, with two configurations: one holds an instance in
    [batch_size], the next the dictionary of that instance, the last an
    instance of the other configuration. *)
Lemma eq_transitive_witness :
  __eq__ (new true (Some (VObject (new true None None None None)))
              None None (Some true))
         (VObject
            (new true (Some (VObject (new true None None None (Some false))))
                 None None None))
  = true.
Proof.
  apply (eq_transitive
           (new true (Some (VObject (new true None None None None)))
                None None (Some true))
           (new true (Some (VDict (to_dict (new true None None None None))))
                None None (Some false)));
    reflexivity.
Defined.

(** Two equal instances, one holding an instance and the other its
    dictionary, each assigned the list [[1]]. *)
Lemma eq_respects_setters_witness :
  __eq__ (batch_size_setter
            (new tt None (Some (VObject (new tt None None None None))) None
                 None)
            (VList [VInt 1]))
         (VObject
            (batch_size_setter
               (new tt None
                    (Some (VDict (to_dict (new tt None None None None))))
                    None None)
               (VList [VInt 1]))) = true
  /\ __eq__ (glob_pattern_setter
               (new tt None (Some (VObject (new tt None None None None)))
                    None None)
               (VList [VInt 1]))
            (VObject
               (glob_pattern_setter
                  (new tt None
                       (Some (VDict (to_dict (new tt None None None None))))
                       None None)
                  (VList [VInt 1]))) = true
  /\ __eq__ (glob_pattern_base_path_setter
               (new tt None (Some (VObject (new tt None None None None)))
                    None None)
               (VList [VInt 1]))
            (VObject
               (glob_pattern_base_path_setter
                  (new tt None
                       (Some (VDict (to_dict (new tt None None None None))))
                       None None)
                  (VList [VInt 1]))) = true.
Proof. apply eq_respects_setters; reflexivity. Defined.
